(** * spark_rapids_tools.utils.util: path/URI helpers, identifier case
      conversion and the run-environment bootstrap.

    A shallow embedding of [util.py].  Python [str] values are embedded as
    [string]; the embedding covers the ASCII fragment of [str], where the case
    functions act on ['A'..'Z'] / ['a'..'z'] and leave every other character
    as it is.  Exceptions are an explicit result type, the process
    environment ([os.environ]) is a [gmap string string]. *)

From Stdlib Require Import Ascii String List Bool Arith ZArith Lia.
From stdpp Require Import base option strings gmap.
Import ListNotations.

Local Open Scope string_scope.

(** ** Characters and the [str] methods used by the module *)

Module Str.

Definition code (c : ascii) : nat := nat_of_ascii c.

Definition between (lo hi : nat) (c : ascii) : bool :=
  (lo <=? code c)%nat && (code c <=? hi)%nat.

(** [c.isupper()], [c.islower()], [c.isdigit()] for one character. *)
Definition isupper (c : ascii) : bool := between 65 90 c.
Definition islower (c : ascii) : bool := between 97 122 c.
Definition isdigit (c : ascii) : bool := between 48 57 c.

(** [c.upper()], [c.lower()]. *)
Definition upper (c : ascii) : ascii :=
  if islower c then ascii_of_nat (code c - 32) else c.
Definition lower (c : ascii) : ascii :=
  if isupper c then ascii_of_nat (code c + 32) else c.

(** The regular-expression class [\w]. *)
Definition is_word (c : ascii) : bool :=
  isupper c || islower c || isdigit c || Ascii.eqb c "_".

Fixpoint map_chars (f : ascii -> ascii) (s : string) : string :=
  match s with
  | "" => ""
  | String c r => String (f c) (map_chars f r)
  end.

Fixpoint all_chars (p : ascii -> bool) (s : string) : bool :=
  match s with
  | "" => true
  | String c r => p c && all_chars p r
  end.

(** [s.capitalize()]: first character upper-cased, the others lower-cased. *)
Definition capitalize (s : string) : string :=
  match s with
  | "" => ""
  | String c r => String (upper c) (map_chars lower r)
  end.

(** [s.split(d)] for a one-character separator [d]; the result is never
    the empty list. *)
Fixpoint split (d : ascii) (s : string) : list string :=
  match s with
  | "" => [""]
  | String c r =>
      if Ascii.eqb c d then "" :: split d r
      else match split d r with
           | h :: t => String c h :: t
           | [] => [String c ""]
           end
  end.

(** [sep.join(parts)]. *)
Definition join (sep : string) (parts : list string) : string :=
  String.concat sep parts.

(** [s.lstrip(d)] and [s.rstrip(d)] for a one-character set [d]. *)
Fixpoint lstrip (d : ascii) (s : string) : string :=
  match s with
  | "" => ""
  | String c r => if Ascii.eqb c d then lstrip d r else s
  end.

Fixpoint rstrip (d : ascii) (s : string) : string :=
  match s with
  | "" => ""
  | String c r =>
      match rstrip d r with
      | "" => if Ascii.eqb c d then "" else String c ""
      | r' => String c r'
      end
  end.

(** [s.startswith(p)]. *)
Definition startswith (p s : string) : bool := String.prefix p s.

(** [s.endswith(d)] for one character. *)
Fixpoint endswith (d : ascii) (s : string) : bool :=
  match s with
  | "" => false
  | String c "" => Ascii.eqb c d
  | String _ r => endswith d r
  end.

(** [a or b] on strings: the empty string is the only falsy one. *)
Definition or_else (a b : string) : string :=
  match a with
  | "" => b
  | _ => a
  end.

(** The characters of a string, as the one-character strings that
    iterating over a [str] yields. *)
Definition chars (s : string) : list ascii := list_ascii_of_string s.

Definition str1 (c : ascii) : string := String c "".

End Str.

(** ** Identifier case conversion *)

(** [word.split('_')[0] + ''.join(x.capitalize() or '_' for x in word.split('_')[1:])] *)
Definition to_camel_case (word : string) : string :=
  hd "" (Str.split "_" word)
  +:+ Str.join ""
        (map (fun x => Str.or_else (Str.capitalize x) "_")
             (tl (Str.split "_" word))).

(** [''.join(x.capitalize() for x in word.split('_'))] *)
Definition to_camel_capital_case (word : string) : string :=
  Str.join "" (map Str.capitalize (Str.split "_" word)).

(** [''.join(['_' + i.lower() if i.isupper() else i for i in word]).lstrip('_')] *)
Definition to_snake_case (word : string) : string :=
  Str.lstrip "_"
    (Str.join ""
       (map (fun i => if Str.isupper i
                      then "_" +:+ Str.str1 (Str.lower i)
                      else Str.str1 i)
            (Str.chars word))).

(** ** Values, exceptions and results *)

(** The arguments the path helpers are called with: a [str], an object with
    an [__fspath__] method (the string is what that method returns), or any
    other object. *)
Inductive pyvalue : Type :=
  | VStr (s : string)
  | VPathLike (s : string)
  | VOther.

Inductive exn : Type :=
  | CspPathAttributeError (msg : string)
  | ValueError (msg : string)
  | ValidationError
  | ImportError
  | FireExit (code : Z)
  | SystemExit (code : Z)
  | IOError (msg : string)
  | OtherError (msg : string).

Inductive result (A : Type) : Type :=
  | Returns (a : A)
  | Raises (e : exn).
Arguments Returns {A} a.
Arguments Raises {A} e.

(** Sequencing: an exception raised by the first computation propagates. *)
#[global] Instance result_ret : MRet result := fun _ a => Returns a.
#[global] Instance result_bind : MBind result := fun _ _ k m =>
  match m with
  | Returns a => k a
  | Raises e => Raises e
  end.

(** ** [os.path] on a POSIX host *)

(** What the path functions read from the process: [os.environ], the
    working directory, and the password database ([pwd.getpwuid(os.getuid())]
    and [pwd.getpwnam], [None] standing for [KeyError]). *)
Record posix : Type := Posix {
  os_environ : gmap string string;
  os_getcwd : string;
  pw_dir_self : option string;
  pw_dir_of : string -> option string
}.

Module PosixPath.

(** The part of [s] before the first [d], and the rest from that [d] on. *)
Fixpoint break (d : ascii) (s : string) : string * string :=
  match s with
  | "" => ("", "")
  | String c r =>
      if Ascii.eqb c d then ("", s)
      else let '(a, b) := break d r in (String c a, b)
  end.

(** [os.path.expanduser]. *)
Definition expanduser (os : posix) (path : string) : string :=
  match path with
  | String "~" r =>
      let '(name, rest) := break "/" r in
      let userhome :=
        match name with
        | "" => match os_environ os !! "HOME" with
                | Some h => Some h
                | None => pw_dir_self os
                end
        | _ => pw_dir_of os name
        end in
      match userhome with
      | None => path
      | Some h => Str.or_else (Str.rstrip "/" h +:+ rest) "/"
      end
  | _ => path
  end.

Definition isabs (path : string) : bool := Str.startswith "/" path.

(** [os.path.join(a, b)]. *)
Definition join (a b : string) : string :=
  if Str.startswith "/" b then b
  else if String.eqb a "" || Str.endswith "/" a then a +:+ b
  else a +:+ "/" +:+ b.

Definition is_nil {A : Type} (l : list A) : bool :=
  match l with
  | [] => true
  | _ => false
  end.

(** One iteration of the loop of [normpath] over the components. *)
Definition norm_step (initial_slashes : nat) (new_comps : list string)
    (comp : string) : list string :=
  if String.eqb comp "" || String.eqb comp "." then new_comps
  else if negb (String.eqb comp "..")
          || ((initial_slashes =? 0)%nat && is_nil new_comps)
          || (negb (is_nil new_comps)
              && bool_decide (last new_comps = Some ".."))
       then new_comps ++ [comp]
  else if negb (is_nil new_comps) then removelast new_comps
  else new_comps.

Definition initial_slashes (path : string) : nat :=
  if Str.startswith "/" path then
    if Str.startswith "//" path && negb (Str.startswith "///" path)
    then 2 else 1
  else 0.

Fixpoint repeat_str (s : string) (n : nat) : string :=
  match n with
  | O => ""
  | S k => s +:+ repeat_str s k
  end.

(** [os.path.normpath]. *)
Definition normpath (path : string) : string :=
  if String.eqb path "" then "."
  else
    let n := initial_slashes path in
    let comps := fold_left (norm_step n) (Str.split "/" path) [] in
    Str.or_else (repeat_str "/" n +:+ Str.join "/" comps) ".".

(** [os.path.abspath]. *)
Definition abspath (os : posix) (path : string) : string :=
  normpath (if isabs path then path else join (os_getcwd os) path).

End PosixPath.

(** ** [pathlib.PurePath(...).as_uri()] on a POSIX host *)

Module PurePath.

(** The root and the parts that [PurePosixPath(s)] keeps. *)
Definition root (s : string) : string :=
  if Str.startswith "/" s then
    if (String.length s - String.length (Str.lstrip "/" s) =? 2)%nat
    then "//" else "/"
  else "".

Definition parts (s : string) : list string :=
  filter (fun x => negb (String.eqb x "") && negb (String.eqb x "."))
         (Str.split "/" (Str.lstrip "/" s)).

Definition to_str (s : string) : string :=
  Str.or_else (root s +:+ Str.join "/" (parts s)) ".".

Definition hex_digit (n : nat) : ascii :=
  match String.get n "0123456789ABCDEF" with
  | Some c => c
  | None => "0"%char
  end.

(** Characters that [urllib.parse.quote_from_bytes] leaves as they are,
    with the default [safe='/']. *)
Definition is_safe (c : ascii) : bool :=
  Str.isupper c || Str.islower c || Str.isdigit c
  || existsb (Ascii.eqb c) ["_"; "."; "-"; "~"; "/"]%char.

Fixpoint quote_from_bytes (s : string) : string :=
  match s with
  | "" => ""
  | String c r =>
      if is_safe c then String c (quote_from_bytes r)
      else String "%" (String (hex_digit (Str.code c / 16))
                         (String (hex_digit (Str.code c mod 16))
                            (quote_from_bytes r)))
  end.

Definition as_uri (s : string) : result string :=
  if String.eqb (root s) ""
  then Raises (ValueError "relative path can't be expressed as a file URI")
  else Returns ("file://" +:+ quote_from_bytes (to_str s)).

End PurePath.

(** ** Path and URI helpers of the module *)

Definition stringify_path (os : posix) (fpath : pyvalue) : result string :=
  actual_val ← match fpath with
                | VStr s => Returns s
                | VPathLike s => Returns s
                | VOther => Raises (CspPathAttributeError "Not a valid path")
                end;
  let expanded_path := PosixPath.expanduser os actual_val in
  Returns (PosixPath.abspath os expanded_path).

(** [re.match(r'\w+://', fpath)]: the longest run of word characters at the
    start of [fpath] is the only candidate for [\w+], since [':'] is not a
    word character. *)
Fixpoint skip_word (s : string) : string :=
  match s with
  | "" => ""
  | String c r => if Str.is_word c then skip_word r else s
  end.

Definition re_match_uri (fpath : string) : bool :=
  match fpath with
  | "" => false
  | String c r => Str.is_word c && Str.startswith "://" (skip_word r)
  end.

Definition get_path_as_uri (os : posix) (fpath : string) : result string :=
  if re_match_uri fpath then Returns fpath
  else
    local_path ← stringify_path os (VStr fpath);
    PurePath.as_uri local_path.

(** ** URL check *)

(** [TypeAdapter(AnyHttpUrl).validate_python]: given a value, the validated
    URL or the exception raised. *)
Definition validator : Type := pyvalue -> result string.

(** [try: validate; return True / except ValidationError: return False]:
    only [ValidationError] is caught. *)
Definition is_http_file (validate_python : validator) (value : pyvalue)
    : result bool :=
  match validate_python value with
  | Returns _ => Returns true
  | Raises ValidationError => Returns false
  | Raises e => Raises e
  end.

Module AnyHttpUrl.

(** The part of [s] before the first character satisfying [p], and the
    rest. *)
Fixpoint span_until (p : ascii -> bool) (s : string) : string * string :=
  match s with
  | "" => ("", "")
  | String c r =>
      if p c then ("", s)
      else let '(a, b) := span_until p r in (String c a, b)
  end.

Definition ends_host (c : ascii) : bool :=
  existsb (Ascii.eqb c) ["/"; "?"; "#"]%char.

Definition well_formed (s : string) : bool :=
  let '(scheme, rest) := span_until (Ascii.eqb ":") s in
  let scheme := Str.map_chars Str.lower scheme in
  (String.eqb scheme "http" || String.eqb scheme "https")
  && Str.startswith "://" rest
  && negb (String.eqb (fst (span_until ends_host
                              (String.substring 3 (String.length rest) rest)))
                      "").

(** Modelled from the spec: pydantic's [AnyHttpUrl] validator is not among
    the sources.  The spec has a value accepted iff it "parses as a
    well-formed HTTP/HTTPS URL (scheme, host, optional path/query)": a
    string made of the scheme [http] or [https], the separator [://], a
    non-empty host, and whatever follows the host from the first [/], [?]
    or [#] on.  Every other value is rejected with [ValidationError]. *)
Definition validate_python : validator := fun value =>
  match value with
  | VStr s => if well_formed s then Returns s else Raises ValidationError
  | _ => Raises ValidationError
  end.

End AnyHttpUrl.

(** ** Usage dump *)

(** What [dump_tool_usage] calls outside the module: the import of
    [spark_rapids_tools.cmdli.ToolsCLI], and [fire.Fire(obj, name, command)],
    which prints the usage and returns or raises. *)
Record cli : Type := Cli {
  import_ToolsCLI : result unit;
  fire_Fire : string -> string -> result unit
}.

(** Truth value of an [Optional[bool]] argument. *)
Definition truthy (b : option bool) : bool :=
  match b with
  | Some true => true
  | _ => false
  end.

(** [f'{tool_name}'] for an [Optional[str]]. *)
Definition fmt_opt (s : option string) : string :=
  match s with
  | Some x => x
  | None => "None"
  end.

Definition sys_exit (code : Z) : result unit := Raises (SystemExit code).

Definition dump_tool_usage (w : cli) (tool_name : option string)
    (raise_sys_exit : option bool) : result unit :=
  _ ← import_ToolsCLI w;
  let help_name := "ascli" in
  let usage_cmd := fmt_opt tool_name +:+ " --help" in
  _ ← match fire_Fire w help_name usage_cmd with
      | Raises (FireExit _) => Returns tt
      | r => r
      end;
  if truthy raise_sys_exit then sys_exit 1 else Returns tt.

(** The call with the parameter's default, [raise_sys_exit=True]. *)
Definition dump_tool_usage_default (w : cli) (tool_name : option string)
    : result unit :=
  dump_tool_usage w tool_name (Some true).

(** ** Run-environment bootstrap *)

Section Bootstrap.

(** The helpers of [Utils] and [FSUtil] that the bootstrap calls are not
    among the sources; what they do outside the environment store is left
    open: [host] is whatever they act on (clock, random source, file
    system). *)
Variable host : Type.

(** [Utils.gen_uuid_with_ts(suffix_len=n)]. *)
Variable gen_uuid_with_ts : nat -> host -> string * host.

(** [FSUtil.make_dirs(path)], which may raise. *)
Variable make_dirs : string -> host -> host * result unit.

(** [Utils.gen_report_sec_header(title)]. *)
Variable gen_report_sec_header : string -> string.

(** The prefix under which the tool's keys live in the environment
    store. *)
Variable env_prefix : string.

Record process : Type := Process {
  environ : gmap string string;
  the_host : host;
  stdout : list string
}.

(** Modelled from the spec: [Utils.get_sys_env_var] is not among the
    sources.  "read the user's home-directory environment variable; if
    absent, default to" the given value. *)
Definition get_sys_env_var (env : gmap string string) (k def_val : string)
    : string :=
  default def_val (env !! k).

(** Modelled from the spec: [Utils.set_rapids_tools_env] is not among the
    sources.  The environment store is "a process-wide mutable key-value
    map of string keys to string values, namespaced under a tool-specific
    prefix". *)
Definition set_rapids_tools_env (env : gmap string string) (k val : string)
    : gmap string string :=
  <[env_prefix +:+ k := val]> env.

(** Modelled from the spec: [FSUtil.build_path] is not among the sources.
    "Derive tools_home_dir = <home>/.spark_rapids_tools". *)
Definition build_path (path other : string) : string :=
  path +:+ "/" +:+ other.

Definition init_environment (short_name : string) (p : process)
    : process * result unit :=
  let '(uuid, h) := gen_uuid_with_ts 8 (the_host p) in
  let env := set_rapids_tools_env (environ p) "UUID" uuid in
  let home_dir := get_sys_env_var env "HOME" "/tmp" in
  let tools_home_dir := build_path home_dir ".spark_rapids_tools" in
  let env := set_rapids_tools_env env "HOME" tools_home_dir in
  let log_dir := tools_home_dir +:+ "/logs" in
  let log_file := log_dir +:+ "/" +:+ short_name +:+ "_" +:+ uuid +:+ ".log" in
  let env := set_rapids_tools_env env "LOG_FILE" log_file in
  match make_dirs log_dir h with
  | (h, Raises e) => (Process env h (stdout p), Raises e)
  | (h, Returns _) =>
      (Process env h
         (stdout p ++ [gen_report_sec_header "Application Logs";
                       "Location: " +:+ log_file;
                       "In case of any errors, please share the log file with the Spark RAPIDS team." +:+ String "010" ""]),
       Returns tt)
  end.

End Bootstrap.

Arguments environ {host} p.
Arguments the_host {host} p.
Arguments stdout {host} p.
Arguments Process {host} environ the_host stdout.

(** ** Vocabulary of the statements *)

(** A string without the separator [d]. *)
Definition free_of (d : ascii) (s : string) : Prop :=
  Str.all_chars (fun c => negb (Ascii.eqb c d)) s = true.

(** A non-empty word of lowercase letters. *)
Definition lowercase_word (w : string) : Prop :=
  w <> "" /\ Str.all_chars Str.islower w = true.

(** [_] inserted before every uppercase character, that character
    lower-cased, everything else kept. *)
Fixpoint snake_body (s : string) : string :=
  match s with
  | "" => ""
  | String c r =>
      if Str.isupper c then String "_" (String (Str.lower c) (snake_body r))
      else String c (snake_body r)
  end.

(** [to_snake_case] in the words of the specification: the leading [_] is
    stripped if the very first character of the input was uppercase. *)
Definition to_snake_case_as_specified (word : string) : string :=
  match word, snake_body word with
  | String c _, String "_" r => if Str.isupper c then r else snake_body word
  | _, b => b
  end.

(** What a segment after the first one contributes to [to_camel_case]: an
    empty segment a literal [_], another one its first character upper-cased
    and the others lower-cased. *)
Definition camel_segment (x : string) : string :=
  match x with
  | "" => "_"
  | String c r => String (Str.upper c) (Str.map_chars Str.lower r)
  end.

(** The same in the words of the specification: first letter uppercase,
    rest unchanged. *)
Definition camel_segment_as_specified (x : string) : string :=
  match x with
  | "" => "_"
  | String c r => String (Str.upper c) r
  end.

(** A string matching [\\w+://] at its start: one or more word characters
    followed by [://]. *)
Definition matches_uri_pattern (x : string) : Prop :=
  exists scheme rest,
    scheme <> "" /\ Str.all_chars Str.is_word scheme = true
    /\ x = scheme +:+ "://" +:+ rest.


(** The invoking user's home directory as [expanduser] finds it: [HOME], or
    else the password database. *)
Definition home_dir (os : posix) : option string :=
  match os_environ os !! "HOME" with
  | Some h => Some h
  | None => pw_dir_self os
  end.

(** A proper path segment: not empty, not [.], not [..], without [/]. *)
Definition proper_segment (c : string) : Prop :=
  c <> "" /\ c <> "." /\ c <> ".." /\ free_of "/" c.

(** An absolute path without [.], [..] or empty segments: the root [/] or
    [//] followed by proper segments joined by [/]. *)
Definition canonical_path (r : string) : Prop :=
  exists root comps,
    (root = "/" \/ root = "//")
    /\ Forall proper_segment comps
    /\ r = root +:+ Str.join "/" comps.

(** A host used in the examples. *)
Definition example_os : posix :=
  Posix (<["HOME" := "/home/user"]> ∅) "/work/dir" (Some "/home/user")
        (fun _ => None).

(** A command-line framework whose help run ends in the "successful help
    exit", and a bootstrap host whose helpers do nothing. *)
Definition example_cli : cli :=
  Cli (Returns tt) (fun _ _ => Raises (FireExit 0)).

Definition example_gen_uuid (n : nat) (h : nat) : string * nat :=
  ("20230101120000_a1b2c3d4", S h).

Definition example_make_dirs (path : string) (h : nat) : nat * result unit :=
  (h, Returns tt).

Definition example_process : process nat := Process ∅ 0 [].

(** The help run of the framework completes: it returns, or signals the
    successful help exit. *)
Definition help_completes (w : cli) (tool_name : option string) : Prop :=
  import_ToolsCLI w = Returns tt
  /\ (fire_Fire w "ascli" (fmt_opt tool_name +:+ " --help") = Returns tt
      \/ exists c, fire_Fire w "ascli" (fmt_opt tool_name +:+ " --help")
                   = Raises (FireExit c)).

(** ** Nested lookups *)

(** A key of a lookup path: a string (for a [dict]) or an integer (for a
    [dict] or a sequence). *)
Inductive key : Type :=
  | KStr (s : string)
  | KInt (i : Z).

(** The data the lookups walk through: [None], an integer, a string, a
    [list], or a [dict] given by its entries (the first entry of a key is the
    one the [dict] holds). *)
#[warnings="-register-all"]
Inductive pydata : Type :=
  | DNone
  | DInt (n : Z)
  | DStr (s : string)
  | DList (items : list pydata)
  | DDict (entries : list (key * pydata)).

(** The exceptions of [a[b]]; [KeyError] and [IndexError] are the
    [LookupError]s. *)
Inductive item_error : Type :=
  | KeyError
  | IndexError
  | TypeError.

Definition is_LookupError (e : item_error) : bool :=
  match e with
  | KeyError | IndexError => true
  | TypeError => false
  end.

Definition key_eqb (a b : key) : bool :=
  match a, b with
  | KStr s, KStr t => String.eqb s t
  | KInt i, KInt j => Z.eqb i j
  | _, _ => false
  end.

Fixpoint dict_get (k : key) (entries : list (key * pydata)) : option pydata :=
  match entries with
  | [] => None
  | (k', v) :: rest => if key_eqb k k' then Some v else dict_get k rest
  end.

(** The position an index [i] denotes in a sequence of length [len]:
    negative indices count from the end. *)
Definition seq_index (len : nat) (i : Z) : option nat :=
  let n := Z.of_nat len in
  if (0 <=? i)%Z && (i <? n)%Z then Some (Z.to_nat i)
  else if (- n <=? i)%Z && (i <? 0)%Z then Some (Z.to_nat (i + n))
  else None.

(** [operator.getitem(a, b)], that is [a[b]]. *)
Definition getitem (a : pydata) (b : key) : item_error + pydata :=
  match a, b with
  | DDict entries, _ =>
      match dict_get b entries with
      | Some v => inr v
      | None => inl KeyError
      end
  | DList items, KInt i =>
      match seq_index (List.length items) i with
      | Some n => match items !! n with
                  | Some v => inr v
                  | None => inl IndexError
                  end
      | None => inl IndexError
      end
  | DStr s, KInt i =>
      match seq_index (String.length s) i with
      | Some n => match String.get n s with
                  | Some c => inr (DStr (String c ""))
                  | None => inl IndexError
                  end
      | None => inl IndexError
      end
  | DList _, KStr _ | DStr _, KStr _ => inl TypeError
  | DNone, _ | DInt _, _ => inl TypeError
  end.

(** [reduce(getitem, keys, data)]. *)
Fixpoint reduce_getitem (keys : list key) (data : pydata)
    : item_error + pydata :=
  match keys with
  | [] => inr data
  | k :: rest =>
      match getitem data k with
      | inr d => reduce_getitem rest d
      | inl e => inl e
      end
  end.

(** [try: return reduce(...) / except LookupError: return None] *)
Definition get_elem_non_safe (data : pydata) (keys : list key)
    : item_error + pydata :=
  match reduce_getitem keys data with
  | inr v => inr v
  | inl e => if is_LookupError e then inr DNone else inl e
  end.

(** The same with the error line printed; [str_of_keys] is [str(keys)], the
    result is what was printed and what is returned or raised. *)
Definition get_elem_from_dict (str_of_keys : list key -> string)
    (data : pydata) (keys : list key) : list string * (item_error + pydata) :=
  match reduce_getitem keys data with
  | inr v => ([], inr v)
  | inl e =>
      if is_LookupError e
      then (["ERROR: Could not find elements [" +:+ str_of_keys keys +:+ "]"],
            inr DNone)
      else ([], inl e)
  end.

(** A configuration used in the examples:
    [{'driver': {'cores': 8, 'tags': ['a', 'b']}, 'name': None}]. *)
Definition example_conf : pydata :=
  DDict [(KStr "driver",
          DDict [(KStr "cores", DInt 8);
                 (KStr "tags", DList [DStr "a"; DStr "b"])]);
         (KStr "name", DNone)].

(** ** Vocabulary of the further statements *)

(** A string without uppercase letters. *)
Definition no_upper (s : string) : Prop :=
  Str.all_chars (fun c => negb (Str.isupper c)) s = true.



(** A host whose password database knows nobody and whose environment has no
    [HOME]. *)
Definition bare_os : posix := Posix ∅ "/srv" None (fun _ => None).

(** A command-line framework whose help run fails, a generator that gives
    each run its own identifier, and a file system on which no directory can
    be created. *)
Definition failing_cli : cli :=
  Cli (Returns tt) (fun _ _ => Raises (OtherError "no such command")).

Definition counting_gen_uuid (n : nat) (h : nat) : string * nat :=
  (if (h =? 0)%nat then "20230101120000_aaaaaaaa"
   else "20230101120001_bbbbbbbb", S h).

Definition readonly_make_dirs (path : string) (h : nat) : nat * result unit :=
  (h, Raises (IOError "Permission denied")).

(** What a run of the bootstrap derives from the process it starts in: the
    identifier, the tools home and the log file. *)
Definition run_uuid {host : Type} (gen_uuid_with_ts : nat -> host -> string * host)
    (p : process host) : string :=
  fst (gen_uuid_with_ts 8 (the_host p)).

Definition run_home {host : Type} (p : process host) : string :=
  build_path (get_sys_env_var (environ p) "HOME" "/tmp") ".spark_rapids_tools".

Definition run_log_file {host : Type}
    (gen_uuid_with_ts : nat -> host -> string * host) (short_name : string)
    (p : process host) : string :=
  run_home p +:+ "/logs/" +:+ short_name +:+ "_"
  +:+ run_uuid gen_uuid_with_ts p +:+ ".log".

(** * Properties *)

(** ** Strings *)

Module StrFacts.

Lemma app_nil_l (s : string) : "" +:+ s = s.
Proof. reflexivity. Qed.

Lemma app_cons (c : ascii) (a b : string) :
  String c a +:+ b = String c (a +:+ b).
Proof. reflexivity. Qed.

Lemma app_nil_r (s : string) : s +:+ "" = s.
Proof. induction s as [|c s IH]; [reflexivity|]. by rewrite app_cons, IH. Qed.

Lemma app_assoc (a b c : string) : (a +:+ b) +:+ c = a +:+ (b +:+ c).
Proof.
  induction a as [|x a IH]; [reflexivity|].
  by rewrite !app_cons, IH.
Qed.

Lemma free_of_cons d c s :
  free_of d (String c s) <-> c <> d /\ free_of d s.
Proof.
  unfold free_of; simpl. rewrite andb_true_iff, negb_true_iff.
  by rewrite Ascii.eqb_neq.
Qed.

Lemma split_cons_ne d c s :
  c <> d ->
  Str.split d (String c s)
  = String c (hd "" (Str.split d s)) :: tl (Str.split d s).
Proof.
  intros Hc. simpl. apply Ascii.eqb_neq in Hc as ->.
  by destruct (Str.split d s).
Qed.

Lemma split_free d s : free_of d s -> Str.split d s = [s].
Proof.
  induction s as [|c s IH]; [done|].
  intros [Hc Hs]%free_of_cons.
  by rewrite split_cons_ne, IH.
Qed.

Lemma split_app_sep d w s :
  free_of d w ->
  Str.split d (w +:+ String d s) = w :: Str.split d s.
Proof.
  induction w as [|c w IH].
  - intros _. rewrite app_nil_l. simpl. by rewrite Ascii.eqb_refl.
  - intros [Hc Hw]%free_of_cons.
    by rewrite app_cons, split_cons_ne, IH.
Qed.

Lemma join_cons2 sep x y l :
  Str.join sep (x :: y :: l) = x +:+ sep +:+ Str.join sep (y :: l).
Proof. reflexivity. Qed.

(** [split] undoes [join] on separator-free parts. *)
Lemma split_join d (l : list string) :
  l <> [] -> Forall (free_of d) l ->
  Str.split d (Str.join (String d "") l) = l.
Proof.
  induction l as [|x [|y l] IH]; [done| |].
  - intros _ Hl. apply Forall_inv in Hl. by apply split_free.
  - intros _ Hl. rewrite join_cons2, app_cons, app_nil_l.
    rewrite split_app_sep by (by apply Forall_inv in Hl).
    f_equal. apply IH; [done|]. by apply Forall_inv_tail in Hl.
Qed.

Lemma join_empty_cons x l : Str.join "" (x :: l) = x +:+ Str.join "" l.
Proof.
  destruct l; [by rewrite app_nil_r|]. by rewrite join_cons2, app_nil_l.
Qed.

Lemma join_empty_app l1 l2 :
  Str.join "" (l1 ++ l2) = Str.join "" l1 +:+ Str.join "" l2.
Proof.
  induction l1 as [|x l1 IH]; [reflexivity|].
  by rewrite <- app_comm_cons, !join_empty_cons, IH, app_assoc.
Qed.

End StrFacts.

(** ** Characters *)

Module CharFacts.

Ltac by_cases c :=
  destruct c as [[] [] [] [] [] [] [] []]; vm_compute; try done; auto.

Lemma islower_not_sep c : Str.islower c = true -> c <> "_"%char.
Proof. by_cases c. Qed.

Lemma islower_not_upper c : Str.islower c = true -> Str.isupper c = false.
Proof. by_cases c. Qed.

Lemma upper_is_upper c : Str.islower c = true -> Str.isupper (Str.upper c) = true.
Proof. by_cases c. Qed.

Lemma lower_upper c : Str.islower c = true -> Str.lower (Str.upper c) = c.
Proof. by_cases c. Qed.

Lemma lower_id c : Str.isupper c = false -> Str.lower c = c.
Proof. unfold Str.lower. by intros ->. Qed.

Lemma lower_not_sep c : Str.isupper c = true -> Str.lower c <> "_"%char.
Proof. by_cases c. Qed.

End CharFacts.

(** ** Identifier case conversion *)

Module CaseFacts.
Import StrFacts CharFacts.

Lemma to_snake_case_body word :
  to_snake_case word = Str.lstrip "_" (snake_body word).
Proof.
  unfold to_snake_case. f_equal.
  induction word as [|c w IH]; [reflexivity|].
  unfold Str.chars in *. cbn [list_ascii_of_string map snake_body].
  rewrite join_empty_cons, IH.
  by destruct (Str.isupper c).
Qed.

Lemma snake_body_app a b :
  snake_body (a +:+ b) = snake_body a +:+ snake_body b.
Proof.
  induction a as [|c a IH]; [reflexivity|].
  rewrite app_cons. cbn [snake_body]. rewrite IH.
  by destruct (Str.isupper c).
Qed.

Lemma snake_body_join l :
  snake_body (Str.join "" l) = Str.join "" (map snake_body l).
Proof.
  induction l as [|x l IH]; [reflexivity|].
  cbn [map]. by rewrite !join_empty_cons, snake_body_app, IH.
Qed.

Lemma map_lower_lowercase w :
  Str.all_chars Str.islower w = true -> Str.map_chars Str.lower w = w.
Proof.
  induction w as [|c w IH]; [done|]. cbn [Str.all_chars Str.map_chars].
  intros [Hc Hw]%andb_true_iff.
  by rewrite IH, lower_id by auto using islower_not_upper.
Qed.

Lemma snake_body_lowercase w :
  Str.all_chars Str.islower w = true -> snake_body w = w.
Proof.
  induction w as [|c w IH]; [done|]. cbn [Str.all_chars snake_body].
  intros [Hc Hw]%andb_true_iff.
  by rewrite islower_not_upper, IH.
Qed.

Lemma snake_body_capitalize w :
  lowercase_word w -> snake_body (Str.capitalize w) = "_" +:+ w.
Proof.
  intros [Hne Hw]. destruct w as [|c w]; [done|].
  cbn [Str.all_chars] in Hw. apply andb_true_iff in Hw as [Hc Hw].
  cbn [Str.capitalize snake_body].
  rewrite upper_is_upper, lower_upper, map_lower_lowercase by done.
  by rewrite snake_body_lowercase.
Qed.

Lemma lowercase_free w : lowercase_word w -> free_of "_" w.
Proof.
  intros [_ Hw]. unfold free_of.
  induction w as [|c w IH]; [done|]. cbn [Str.all_chars] in *.
  apply andb_true_iff in Hw as [Hc Hw]. rewrite IH by done.
  apply islower_not_sep, Ascii.eqb_neq in Hc. by rewrite Hc.
Qed.

Lemma join_prefixed (l : list string) :
  l <> [] ->
  Str.join "" (map (fun w => "_" +:+ w) l) = "_" +:+ Str.join "_" l.
Proof.
  induction l as [|x [|y l] IH]; [done| |]; intros _.
  - cbn [map]. by rewrite join_empty_cons, app_nil_r.
  - change (map _ (x :: y :: l)) with
      (("_" +:+ x) :: map (fun w => "_" +:+ w) (y :: l)).
    rewrite join_empty_cons, IH, join_cons2 by done.
    by rewrite !app_assoc.
Qed.

Lemma lstrip_lowercase_join x l :
  lowercase_word x ->
  Str.lstrip "_" ("_" +:+ Str.join "_" (x :: l)) = Str.join "_" (x :: l).
Proof.
  intros [Hne Hx]. destruct x as [|c x]; [done|].
  cbn [Str.all_chars] in Hx. apply andb_true_iff in Hx as [Hc _].
  apply islower_not_sep, Ascii.eqb_neq in Hc.
  assert (exists t, Str.join "_" (String c x :: l) = String c t) as [t ->].
  { destruct l; [by eexists|]. rewrite join_cons2, app_cons. by eexists. }
  rewrite app_cons, app_nil_l. cbn. by rewrite Hc.
Qed.

(** [to_camel_case] and [to_camel_capital_case] on a word given by its
    segments. *)
Lemma camel_capital_join (l : list string) :
  Forall (free_of "_") l ->
  to_camel_capital_case (Str.join "_" l) = Str.join "" (map Str.capitalize l).
Proof.
  intros Hl. unfold to_camel_capital_case.
  destruct l as [|x l]; [reflexivity|]. by rewrite split_join.
Qed.

Lemma or_else_capitalize x :
  Str.or_else (Str.capitalize x) "_" = camel_segment x.
Proof. by destruct x. Qed.

Lemma camel_join s0 (l : list string) :
  Forall (free_of "_") (s0 :: l) ->
  to_camel_case (Str.join "_" (s0 :: l))
  = s0 +:+ Str.join "" (map camel_segment l).
Proof.
  intros Hl. unfold to_camel_case. rewrite split_join by done.
  cbn [hd tl]. do 2 f_equal.
  apply map_ext, or_else_capitalize.
Qed.

End CaseFacts.

(** C4: for a string [s] made of non-empty lowercase words joined by single
    underscores, [to_snake_case (to_camel_capital_case s) = s]. *)
Theorem snake_of_camel_capital_roundtrip (words : list string) :
  words <> [] -> Forall lowercase_word words ->
  to_snake_case (to_camel_capital_case (Str.join "_" words))
  = Str.join "_" words.
Proof.
  intros Hne Hw.
  rewrite CaseFacts.camel_capital_join
    by (eapply Forall_impl; [eassumption | apply CaseFacts.lowercase_free]).
  rewrite CaseFacts.to_snake_case_body, CaseFacts.snake_body_join, map_map.
  rewrite (map_ext_Forall _ (fun w => "_" +:+ w)); cycle 1.
  { eapply Forall_impl; [exact Hw | apply CaseFacts.snake_body_capitalize]. }
  rewrite CaseFacts.join_prefixed by done.
  destruct words as [|x l]; [done|].
  apply CaseFacts.lstrip_lowercase_join. by apply Forall_inv in Hw.
Qed.

Lemma snake_of_camel_capital_roundtrip_witness :
  to_camel_capital_case "max_retry_count" = "MaxRetryCount"
  /\ to_snake_case (to_camel_capital_case "max_retry_count") = "max_retry_count".
Proof.
  split; [reflexivity|].
  apply (snake_of_camel_capital_roundtrip ["max"; "retry"; "count"]).
  - discriminate.
  - repeat constructor; discriminate.
Defined.

(** C5, as amended: [to_snake_case] inserts [_] before every uppercase
    character and lower-cases that character, and then strips every leading
    [_] of the result: the one inserted before an uppercase first character,
    and also the underscores the input itself starts with. *)
Theorem to_snake_case_strips_leading_underscores :
  to_snake_case "" = ""
  /\ (forall c r, Str.isupper c = true ->
        to_snake_case (String c r) = String (Str.lower c) (snake_body r))
  /\ (forall c r, Str.isupper c = false -> c <> "_"%char ->
        to_snake_case (String c r) = String c (snake_body r))
  /\ (forall r, to_snake_case (String "_" r) = to_snake_case r).
Proof.
  split; [reflexivity|]. split; [|split].
  - intros c r Hc. rewrite CaseFacts.to_snake_case_body.
    cbn [snake_body]. rewrite Hc. cbn [Str.lstrip Ascii.eqb Bool.eqb].
    apply CharFacts.lower_not_sep, Ascii.eqb_neq in Hc.
    cbn [Str.lstrip]. by rewrite Hc.
  - intros c r Hc Hsep. rewrite CaseFacts.to_snake_case_body.
    cbn [snake_body]. rewrite Hc. cbn [Str.lstrip].
    apply Ascii.eqb_neq in Hsep. by rewrite Hsep.
  - intros r. by rewrite !CaseFacts.to_snake_case_body.
Qed.

Lemma to_snake_case_strips_leading_underscores_witness :
  to_snake_case "MaxRetry" = "max_retry"
  /\ to_snake_case "maxRetry" = "max_retry"
  /\ to_snake_case "__Max" = "max".
Proof.
  destruct to_snake_case_strips_leading_underscores as (_ & Hup & Hlow & Hsep).
  split; [|split].
  - apply (Hup "M"%char "axRetry"). reflexivity.
  - apply (Hlow "m"%char "axRetry"); [reflexivity | discriminate].
  - rewrite !Hsep. apply (Hup "M"%char "ax"). reflexivity.
Defined.

(** C5 as stated fails: the leading underscore of ["_a"] is stripped although
    the first character of the input is not uppercase. *)
Lemma to_snake_case_strips_input_underscore :
  to_snake_case "_a" = "a"
  /\ to_snake_case "_a" <> to_snake_case_as_specified "_a".
Proof. split; [reflexivity | discriminate]. Qed.

(** C6, as amended: [to_camel_case] splits on [_], keeps the first segment,
    and appends for each later segment its capitalised form, first letter
    upper-cased and the other letters lower-cased; an empty segment gives a
    literal [_]. *)
Theorem to_camel_case_segments (s0 : string) (segs : list string) :
  Forall (free_of "_") (s0 :: segs) ->
  to_camel_case (Str.join "_" (s0 :: segs))
  = s0 +:+ Str.join "" (map camel_segment segs).
Proof. apply CaseFacts.camel_join. Qed.

Lemma to_camel_case_segments_witness :
  to_camel_case "max_rETRY_count" = "maxRetryCount".
Proof.
  apply (to_camel_case_segments "max" ["rETRY"; "count"]).
  repeat constructor.
Defined.

(** C6 as stated fails: the segment ["bC"] contributes ["Bc"], the letters
    after the first one are lower-cased. *)
Lemma to_camel_case_lowers_rest :
  to_camel_case "a_bC" = "aBc"
  /\ to_camel_case (Str.join "_" ["a"; "bC"])
     <> "a" +:+ Str.join "" (map camel_segment_as_specified ["bC"]).
Proof. split; [reflexivity | discriminate]. Qed.

(** C7: in [to_camel_case] an empty segment between two underscores gives a
    literal [_] between what comes before and what comes after it, so
    [to_camel_case "a__b" = "a_B"]; in [to_camel_capital_case] an empty segment
    contributes nothing. *)
Theorem empty_segments (s0 : string) (pre post : list string) :
  Forall (free_of "_") (s0 :: pre ++ post) ->
  to_camel_case (Str.join "_" (s0 :: pre ++ "" :: post))
  = to_camel_case (Str.join "_" (s0 :: pre)) +:+ "_"
    +:+ Str.join "" (map camel_segment post)
  /\ to_camel_case "a__b" = "a_B"
  /\ to_camel_capital_case (Str.join "_" ((s0 :: pre) ++ "" :: post))
     = to_camel_capital_case (Str.join "_" ((s0 :: pre) ++ post))
  /\ to_camel_capital_case (Str.join "_" ("" :: s0 :: pre ++ post))
     = to_camel_capital_case (Str.join "_" (s0 :: pre ++ post)).
Proof.
  intros Hall.
  assert (Hs0 : free_of "_" s0) by (by apply Forall_inv in Hall).
  apply Forall_inv_tail, Forall_app in Hall as [Hpre Hpost].
  assert (Hnil : free_of "_" "") by reflexivity.
  split; [|split; [reflexivity|split]].
  - rewrite !CaseFacts.camel_join
      by (rewrite ?Forall_cons, ?Forall_app; auto).
    rewrite map_app. cbn [map camel_segment].
    rewrite StrFacts.join_empty_app, StrFacts.join_empty_cons.
    by rewrite !StrFacts.app_assoc.
  - rewrite !CaseFacts.camel_capital_join
      by (rewrite ?Forall_cons, ?Forall_app; auto).
    rewrite !map_app. cbn [map Str.capitalize].
    by rewrite !StrFacts.join_empty_app, (StrFacts.join_empty_cons "").
  - rewrite !CaseFacts.camel_capital_join
      by (rewrite ?Forall_cons, ?Forall_app; auto).
    cbn [map Str.capitalize]. by rewrite (StrFacts.join_empty_cons "").
Qed.

Lemma empty_segments_witness :
  to_camel_case "a_b__c" = "aB_C"
  /\ to_camel_capital_case "a_b__c" = to_camel_capital_case "a_b_c".
Proof.
  destruct (empty_segments "a" ["b"] ["c"]) as (H1 & _ & H2 & _).
  - repeat constructor.
  - split; [exact H1 | exact H2].
Defined.

(** ** URIs *)

Module UriFacts.
Import StrFacts CharFacts.

Lemma startswith_app p s : Str.startswith p (p +:+ s) = true.
Proof.
  unfold Str.startswith. induction p as [|c p IH].
  - rewrite app_nil_l. by destruct s.
  - rewrite app_cons. cbn [String.prefix].
    by destruct (ascii_dec c c).
Qed.

Lemma startswith_inv p s :
  Str.startswith p s = true -> exists rest, s = p +:+ rest.
Proof.
  unfold Str.startswith. revert s. induction p as [|c p IH]; intros s.
  - intros _. by exists s.
  - destruct s as [|d s]; [done|]. cbn [String.prefix].
    destruct (ascii_dec c d) as [->|]; [|done].
    intros [rest ->]%IH. exists rest. by rewrite app_cons.
Qed.

Lemma skip_word_app w t :
  Str.all_chars Str.is_word w = true ->
  skip_word (w +:+ String ":" t) = String ":" t.
Proof.
  induction w as [|c w IH]; [done|]. cbn [Str.all_chars].
  intros [Hc Hw]%andb_true_iff.
  rewrite app_cons. cbn [skip_word]. by rewrite Hc, IH.
Qed.

Lemma skip_word_split r :
  exists w, Str.all_chars Str.is_word w = true /\ r = w +:+ skip_word r.
Proof.
  induction r as [|c r (w & Hw & IH)]; [by exists ""|].
  cbn [skip_word]. destruct (Str.is_word c) eqn:Hc.
  - exists (String c w). cbn [Str.all_chars]. rewrite Hc, Hw.
    split; [done|]. by rewrite app_cons, <- IH.
  - by exists "".
Qed.

(** The matcher decides the pattern. *)
Lemma re_match_uri_spec x :
  re_match_uri x = true <-> matches_uri_pattern x.
Proof.
  split.
  - destruct x as [|c r]; [done|]. cbn [re_match_uri].
    intros [Hc [rest Hrest]%startswith_inv]%andb_true_iff.
    destruct (skip_word_split r) as (w & Hw & Hr).
    exists (String c w), rest. cbn [Str.all_chars]. rewrite Hc, Hw.
    repeat split; [done|]. rewrite app_cons. f_equal.
    by rewrite Hr at 1; rewrite Hrest.
  - intros (scheme & rest & Hne & Hw & ->).
    destruct scheme as [|c w]; [done|]. cbn [Str.all_chars] in Hw.
    apply andb_true_iff in Hw as [Hc Hw].
    rewrite app_cons. cbn [re_match_uri]. rewrite Hc.
    change ("://" +:+ rest) with (String ":" ("//" +:+ rest)).
    rewrite skip_word_app by done.
    apply (startswith_app "://" rest).
Qed.

End UriFacts.

(** C1: on a string that matches [\\w+://], [get_path_as_uri] returns the
    string itself, whatever the host, and so applying it twice gives what
    applying it once gives. *)
Theorem get_path_as_uri_keeps_uri (os : posix) (x : string) :
  matches_uri_pattern x ->
  get_path_as_uri os x = Returns x
  /\ (u ← get_path_as_uri os x; get_path_as_uri os u) = get_path_as_uri os x.
Proof.
  intros Hx%UriFacts.re_match_uri_spec.
  assert (H : get_path_as_uri os x = Returns x).
  { unfold get_path_as_uri. by rewrite Hx. }
  split; [exact H|]. rewrite H. exact H.
Qed.

Lemma get_path_as_uri_keeps_uri_witness :
  get_path_as_uri example_os "s3://bucket/key" = Returns "s3://bucket/key".
Proof.
  apply (get_path_as_uri_keeps_uri example_os "s3://bucket/key").
  exists "s3", "bucket/key". repeat split. discriminate.
Defined.

(** ** Local paths *)

Module PathFacts.
Import StrFacts CharFacts.

Lemma split_parts_free d s : Forall (free_of d) (Str.split d s).
Proof.
  induction s as [|c s IH]; [by repeat constructor|].
  cbn [Str.split]. destruct (Ascii.eqb c d) eqn:Hc.
  - by constructor.
  - apply Ascii.eqb_neq in Hc.
    destruct (Str.split d s) as [|h t].
    + constructor; [|constructor]. by apply free_of_cons.
    + apply Forall_cons in IH as [Hh Ht]. constructor; [|done].
      by apply free_of_cons.
Qed.

Lemma Forall_removelast {A} (P : A -> Prop) l :
  Forall P l -> Forall P (removelast l).
Proof.
  induction 1 as [|x l Hx Hl IH]; [constructor|].
  cbn [removelast]. destruct l; [constructor|]. by constructor.
Qed.

Lemma norm_step_proper n acc comp :
  n <> 0 -> free_of "/" comp -> Forall proper_segment acc ->
  Forall proper_segment (PosixPath.norm_step n acc comp).
Proof.
  intros Hn Hcomp Hacc. unfold PosixPath.norm_step.
  destruct (String.eqb_spec comp ""); [done|].
  destruct (String.eqb_spec comp "."); [done|]. cbn [orb].
  destruct (String.eqb_spec comp "..") as [->|Hdd]; cbn [negb orb].
  - apply Nat.eqb_neq in Hn as ->. cbn [andb orb].
    destruct acc as [|a acc]; [done|]. cbn [PosixPath.is_nil negb andb].
    case_bool_decide as Hlast.
    + apply last_Some in Hlast as [l' Hl']. rewrite Hl' in Hacc.
      apply Forall_app in Hacc as [_ Hacc]. apply Forall_inv in Hacc.
      by destruct Hacc as (_ & _ & ? & _).
    + by apply Forall_removelast.
  - apply Forall_app. split; [done|]. by repeat constructor.
Qed.

Lemma fold_norm_step_proper n comps acc :
  n <> 0 -> Forall (free_of "/") comps -> Forall proper_segment acc ->
  Forall proper_segment (fold_left (PosixPath.norm_step n) comps acc).
Proof.
  intros Hn. revert acc.
  induction comps as [|c comps IH]; intros acc Hc Hacc; [done|].
  apply Forall_cons in Hc as [Hc Hcomps]. cbn [fold_left].
  by apply IH, norm_step_proper.
Qed.

Lemma initial_slashes_abs p :
  PosixPath.isabs p = true ->
  PosixPath.initial_slashes p = 1 \/ PosixPath.initial_slashes p = 2.
Proof.
  unfold PosixPath.isabs, PosixPath.initial_slashes. intros ->.
  destruct (_ && _); auto.
Qed.

(** [normpath] of an absolute path is canonical. *)
Lemma normpath_canonical p :
  PosixPath.isabs p = true -> canonical_path (PosixPath.normpath p).
Proof.
  intros Habs. unfold PosixPath.normpath.
  destruct (String.eqb_spec p "") as [->|_]; [done|].
  set (n := PosixPath.initial_slashes p).
  set (comps := fold_left _ _ _).
  assert (Hcomps : Forall proper_segment comps).
  { apply fold_norm_step_proper; [|apply split_parts_free|constructor].
    subst n. destruct (initial_slashes_abs p Habs) as [-> | ->]; done. }
  destruct (initial_slashes_abs p Habs) as [Hn | Hn]; fold n in Hn;
    rewrite Hn; cbn [PosixPath.repeat_str]; rewrite app_nil_r.
  - exists "/", comps. by repeat split; auto.
  - exists "//", comps. by repeat split; auto.
Qed.

Lemma startswith_char d c x :
  Str.startswith (String d "") (String c x) = true <-> d = c.
Proof.
  unfold Str.startswith. cbn [String.prefix].
  destruct (ascii_dec d c); [by destruct x | done].
Qed.

Lemma join_abs cwd path :
  PosixPath.isabs cwd = true ->
  PosixPath.isabs path = false ->
  PosixPath.isabs (PosixPath.join cwd path) = true.
Proof.
  unfold PosixPath.isabs, PosixPath.join. intros Hcwd ->.
  destruct cwd as [|c cwd]; [done|].
  apply startswith_char in Hcwd.
  destruct (_ || _); rewrite app_cons; by apply startswith_char.
Qed.

Lemma abspath_canonical os path :
  PosixPath.isabs (os_getcwd os) = true ->
  canonical_path (PosixPath.abspath os path).
Proof.
  intros Hcwd. unfold PosixPath.abspath. apply normpath_canonical.
  destruct (PosixPath.isabs path) eqn:Hp; [done|]. by apply join_abs.
Qed.



Lemma expanduser_other os s :
  Str.startswith "~" s = false -> PosixPath.expanduser os s = s.
Proof.
  destruct s as [|c s]; [done|]. unfold Str.startswith. cbn [String.prefix].
  destruct (ascii_dec "~" c) as [<-|Hc]; [by destruct s|].
  intros _. unfold PosixPath.expanduser.
  by destruct c as [[] [] [] [] [] [] [] []].
Qed.

End PathFacts.




(** ** URL check *)

(** C3: [is_http_file] never raises and returns true exactly when the value
    validates as an HTTP/HTTPS URL, every other value giving false; it is true
    on ["https://example.com/path"], false on ["/etc/hosts"] and on
    ["ftp:/bad"]. *)
Theorem is_http_file_total :
  (forall (validate_python : validator) (value : pyvalue),
     (forall e, validate_python value = Raises e -> e = ValidationError) ->
     exists b, is_http_file validate_python value = Returns b
               /\ (b = true <-> exists u, validate_python value = Returns u))
  /\ (forall value,
        exists b, is_http_file AnyHttpUrl.validate_python value = Returns b
                  /\ (b = true <-> exists s, value = VStr s
                                            /\ AnyHttpUrl.well_formed s = true))
  /\ is_http_file AnyHttpUrl.validate_python (VStr "https://example.com/path")
     = Returns true
  /\ is_http_file AnyHttpUrl.validate_python (VStr "/etc/hosts")
     = Returns false
  /\ is_http_file AnyHttpUrl.validate_python (VStr "ftp:/bad")
     = Returns false.
Proof.
  split; [|split; [|split; [|split]; vm_compute; reflexivity]].
  - intros validate_python value Honly. unfold is_http_file.
    destruct (validate_python value) as [u|e] eqn:Hv.
    + exists true. split; [done|]. split; [by exists u | done].
    + rewrite (Honly e eq_refl). exists false.
      split; [done|]. split; [done | by intros [u ?]].
  - intros value. unfold is_http_file, AnyHttpUrl.validate_python.
    destruct value as [s|s|].
    + destruct (AnyHttpUrl.well_formed s) eqn:Hs.
      * exists true. split; [done|]. split; [by exists s | done].
      * exists false. split; [done|].
        split; [done | intros (t & ? & ?); simplify_eq; congruence].
    + exists false. split; [done|]. split; [done | by intros (t & ? & ?)].
    + exists false. split; [done|]. split; [done | by intros (t & ? & ?)].
Qed.

Lemma is_http_file_total_witness :
  exists b, is_http_file AnyHttpUrl.validate_python (VStr "http://") = Returns b
            /\ (b = true <-> exists u, AnyHttpUrl.validate_python (VStr "http://")
                                       = Returns u).
Proof.
  apply (proj1 is_http_file_total AnyHttpUrl.validate_python (VStr "http://")).
  intros e He. vm_compute in He. by injection He as <-.
Defined.

(** ** Usage dump *)

Module DumpFacts.

Lemma dump_outcome w tool_name raise_sys_exit :
  help_completes w tool_name ->
  dump_tool_usage w tool_name raise_sys_exit
  = if truthy raise_sys_exit then Raises (SystemExit 1) else Returns tt.
Proof.
  intros [Himp Hfire]. unfold dump_tool_usage. rewrite Himp.
  change (_ ← Returns tt; ?k) with k.
  destruct Hfire as [-> | [c ->]]; reflexivity.
Qed.

End DumpFacts.

(** C9, as amended: when [raise_sys_exit] is true, as it is by default,
    [dump_tool_usage] swallows the successful help exit of the framework and
    then terminates the process with exit code 1. *)
Theorem dump_tool_usage_exits_with_1 (w : cli) (tool_name : option string)
    (raise_sys_exit : option bool) :
  help_completes w tool_name ->
  truthy raise_sys_exit = true ->
  dump_tool_usage w tool_name raise_sys_exit = Raises (SystemExit 1)
  /\ dump_tool_usage_default w tool_name = Raises (SystemExit 1).
Proof.
  intros Hw Hraise. unfold dump_tool_usage_default.
  rewrite !DumpFacts.dump_outcome by done. by rewrite Hraise.
Qed.

Lemma dump_tool_usage_exits_with_1_witness :
  dump_tool_usage example_cli (Some "qualification") (Some true)
  = Raises (SystemExit 1).
Proof.
  apply (dump_tool_usage_exits_with_1 example_cli (Some "qualification")
           (Some true)).
  - split; [reflexivity | right; exists 0%Z; reflexivity].
  - reflexivity.
Defined.

(** C9 as stated fails: called with [raise_sys_exit=False] the function
    swallows the help exit and returns, the process goes on. *)
Lemma dump_tool_usage_returns_when_disabled :
  dump_tool_usage example_cli (Some "qualification") (Some false) = Returns tt
  /\ dump_tool_usage example_cli (Some "qualification") (Some false)
     <> Raises (SystemExit 1).
Proof. split; [reflexivity | discriminate]. Qed.

(** C10: the exit depends on the second parameter.  With
    [raise_sys_exit=False] the function returns normally; it exits with code
    1 only when [raise_sys_exit] is true. *)
Theorem dump_tool_usage_exit_is_conditional (w : cli)
    (tool_name : option string) :
  help_completes w tool_name ->
  dump_tool_usage w tool_name (Some false) = Returns tt
  /\ (forall raise_sys_exit,
        dump_tool_usage w tool_name raise_sys_exit = Raises (SystemExit 1)
        <-> raise_sys_exit = Some true).
Proof.
  intros Hw. split; [by rewrite DumpFacts.dump_outcome|].
  intros r. rewrite DumpFacts.dump_outcome by done.
  destruct r as [[]|]; cbn; split; intros; by simplify_eq.
Qed.

Lemma dump_tool_usage_exit_is_conditional_witness :
  dump_tool_usage example_cli None (Some false) = Returns tt.
Proof.
  apply (dump_tool_usage_exit_is_conditional example_cli None).
  split; [reflexivity | right; exists 0%Z; reflexivity].
Defined.

(** ** Run-environment bootstrap *)

Module EnvFacts.

Lemma uuid_key_not_home prefix : prefix +:+ "UUID" <> "HOME".
Proof.
  destruct prefix as [|a [|b [|c [|d [|e prefix]]]]];
    intros H; vm_compute in H; discriminate.
Qed.

Lemma key_ne prefix k1 k2 : k1 <> k2 -> prefix +:+ k1 <> prefix +:+ k2.
Proof. intros Hk H. by apply (inj (String.app prefix)) in H. Qed.

End EnvFacts.

(** C8: when [HOME] is not in the environment, [init_environment] takes
    [/tmp] as the home directory, publishes
    [/tmp/.spark_rapids_tools] as the tools home and
    [/tmp/.spark_rapids_tools/logs/<short_name>_<uuid>.log] under the log-file
    key, where [uuid] is the identifier generated first and published under
    the identifier key; this holds whether or not the directory creation
    succeeds. *)
Theorem init_environment_without_home (host : Type)
    (gen_uuid_with_ts : nat -> host -> string * host)
    (make_dirs : string -> host -> host * result unit)
    (gen_report_sec_header : string -> string)
    (env_prefix short_name : string) (p : process host) :
  environ p !! "HOME" = None ->
  let uuid := fst (gen_uuid_with_ts 8 (the_host p)) in
  let p' := fst (init_environment host gen_uuid_with_ts make_dirs
                   gen_report_sec_header env_prefix short_name p) in
  environ p' !! (env_prefix +:+ "UUID") = Some uuid
  /\ environ p' !! (env_prefix +:+ "HOME") = Some "/tmp/.spark_rapids_tools"
  /\ environ p' !! (env_prefix +:+ "LOG_FILE")
     = Some ("/tmp/.spark_rapids_tools/logs/" +:+ short_name +:+ "_"
             +:+ uuid +:+ ".log").
Proof.
  intros Hhome uuid p'. subst uuid p'. unfold init_environment.
  destruct (gen_uuid_with_ts 8 (the_host p)) as [uuid h]. cbn [fst].
  unfold get_sys_env_var, set_rapids_tools_env.
  rewrite lookup_insert_ne by apply EnvFacts.uuid_key_not_home.
  rewrite Hhome. cbn [default].
  set (env := <[_ := _]> (<[_ := _]> (<[_ := _]> (environ p)))).
  assert (Henv :
    env !! (env_prefix +:+ "UUID") = Some uuid
    /\ env !! (env_prefix +:+ "HOME") = Some "/tmp/.spark_rapids_tools"
    /\ env !! (env_prefix +:+ "LOG_FILE")
       = Some ("/tmp/.spark_rapids_tools/logs/" +:+ short_name +:+ "_"
               +:+ uuid +:+ ".log")).
  { subst env. split; [|split].
    - rewrite !lookup_insert_ne by (by apply EnvFacts.key_ne).
      apply lookup_insert_eq.
    - rewrite lookup_insert_ne by (by apply EnvFacts.key_ne).
      apply lookup_insert_eq.
    - rewrite lookup_insert_eq. reflexivity. }
  by destruct (make_dirs _ h) as [h' [[]|e]].
Qed.

Lemma init_environment_without_home_witness :
  environ (fst (init_environment nat example_gen_uuid example_make_dirs
                  (fun t => t) "RAPIDS_USER_TOOLS_" "qualification"
                  example_process))
  !! "RAPIDS_USER_TOOLS_LOG_FILE"
  = Some "/tmp/.spark_rapids_tools/logs/qualification_20230101120000_a1b2c3d4.log".
Proof.
  apply (init_environment_without_home nat example_gen_uuid example_make_dirs
           (fun t => t) "RAPIDS_USER_TOOLS_" "qualification" example_process).
  reflexivity.
Defined.

(** ** Nested lookups *)

Module LookupFacts.

Lemma reduce_app ks1 ks2 data :
  reduce_getitem (ks1 ++ ks2) data
  = match reduce_getitem ks1 data with
    | inr d => reduce_getitem ks2 d
    | inl e => inl e
    end.
Proof.
  revert data. induction ks1 as [|k ks1 IH]; intros data; [reflexivity|].
  cbn [app reduce_getitem]. by destruct (getitem data k).
Qed.

End LookupFacts.

(** X1: when the walk along [ks1] arrives at a container that has no item
    for the next key (a missing [dict] key, a sequence index out of range),
    [get_elem_non_safe] returns [None], whatever keys follow. *)
Theorem get_elem_non_safe_missing (data d : pydata) (ks1 ks2 : list key)
    (k : key) (e : item_error) :
  reduce_getitem ks1 data = inr d ->
  getitem d k = inl e -> is_LookupError e = true ->
  get_elem_non_safe data (ks1 ++ k :: ks2) = inr DNone.
Proof.
  intros Hd Hk He. unfold get_elem_non_safe.
  rewrite LookupFacts.reduce_app, Hd. cbn [reduce_getitem].
  by rewrite Hk, He.
Qed.

Lemma get_elem_non_safe_missing_witness :
  get_elem_non_safe example_conf [KStr "driver"; KStr "memory"; KStr "unit"]
  = inr DNone
  /\ get_elem_non_safe example_conf [KStr "driver"; KStr "tags"; KInt 2]
     = inr DNone.
Proof.
  split.
  - apply (get_elem_non_safe_missing example_conf
             (DDict [(KStr "cores", DInt 8);
                     (KStr "tags", DList [DStr "a"; DStr "b"])])
             [KStr "driver"] [KStr "unit"] (KStr "memory") KeyError);
      reflexivity.
  - apply (get_elem_non_safe_missing example_conf
             (DList [DStr "a"; DStr "b"])
             [KStr "driver"; KStr "tags"] [] (KInt 2) IndexError);
      reflexivity.
Defined.

(** X2: lookups compose: when the walk along [ks1] arrives at [d], looking
    up [ks1 ++ ks2] in the data is looking up [ks2] in [d]. *)
Theorem get_elem_non_safe_app (data d : pydata) (ks1 ks2 : list key) :
  reduce_getitem ks1 data = inr d ->
  get_elem_non_safe data (ks1 ++ ks2) = get_elem_non_safe d ks2.
Proof.
  intros Hd. unfold get_elem_non_safe.
  by rewrite LookupFacts.reduce_app, Hd.
Qed.

Lemma get_elem_non_safe_app_witness :
  get_elem_non_safe example_conf [KStr "driver"; KStr "tags"; KInt (-1)]
  = get_elem_non_safe (DList [DStr "a"; DStr "b"]) [KInt (-1)].
Proof.
  apply (get_elem_non_safe_app example_conf (DList [DStr "a"; DStr "b"])
           [KStr "driver"; KStr "tags"] [KInt (-1)]).
  reflexivity.
Defined.

(** X3: only [LookupError] is caught.  When the walk arrives at [None] or at
    an integer and a key follows, [get_elem_non_safe] raises [TypeError]; and
    it never raises anything else. *)
Theorem get_elem_non_safe_type_error (data : pydata) (keys : list key) :
  (forall e, get_elem_non_safe data keys = inl e -> e = TypeError)
  /\ (forall (ks1 : list key) k ks2 d,
        keys = (ks1 ++ k :: ks2)%list ->
        reduce_getitem ks1 data = inr d ->
        d = DNone \/ (exists n, d = DInt n) ->
        get_elem_non_safe data keys = inl TypeError).
Proof.
  split.
  - unfold get_elem_non_safe. intros e.
    destruct (reduce_getitem keys data) as [[]|]; cbn; congruence.
  - intros ks1 k ks2 d -> Hd Hscalar. unfold get_elem_non_safe.
    rewrite LookupFacts.reduce_app, Hd. cbn [reduce_getitem].
    by destruct Hscalar as [-> | [n ->]].
Qed.

Lemma get_elem_non_safe_type_error_witness :
  get_elem_non_safe example_conf [KStr "name"; KStr "first"] = inl TypeError.
Proof.
  apply (proj2 (get_elem_non_safe_type_error example_conf
                  [KStr "name"; KStr "first"])
           [KStr "name"] (KStr "first") [] DNone);
    [reflexivity | reflexivity | by left].
Defined.

(** X4: [get_elem_from_dict] returns or raises what [get_elem_non_safe]
    does, and prints its one error line, naming the keys, exactly when a
    [LookupError] was caught. *)
Theorem get_elem_from_dict_prints_on_lookup_error
    (str_of_keys : list key -> string) (data : pydata) (keys : list key) :
  let line := "ERROR: Could not find elements [" +:+ str_of_keys keys +:+ "]" in
  let printed := fst (get_elem_from_dict str_of_keys data keys) in
  snd (get_elem_from_dict str_of_keys data keys) = get_elem_non_safe data keys
  /\ (printed = [] \/ printed = [line])
  /\ (printed = [line]
      <-> exists e, reduce_getitem keys data = inl e
                    /\ is_LookupError e = true).
Proof.
  unfold get_elem_from_dict, get_elem_non_safe.
  destruct (reduce_getitem keys data) as [e|v] eqn:Hr.
  - destruct (is_LookupError e) eqn:He; cbn [fst snd].
    + split; [done|]. split; [by right|]. split; [by exists e | done].
    + split; [done|]. split; [by left|]. split; [done|].
      intros (e' & ? & ?). simplify_eq. congruence.
  - cbn [fst snd]. split; [done|]. split; [by left|].
    split; [done | by intros (e' & ? & ?)].
Qed.

(** ** More on identifier case conversion *)

Module SnakeFacts.
Import StrFacts CharFacts CaseFacts.


Lemma lower_not_upper c : Str.isupper (Str.lower c) = false.
Proof. by_cases c. Qed.

Lemma upper_sep c :
  Ascii.eqb (Str.upper c) "_" = Ascii.eqb c "_".
Proof. by_cases c. Qed.

Lemma lower_sep c :
  Ascii.eqb (Str.lower c) "_" = Ascii.eqb c "_".
Proof. by_cases c. Qed.

Lemma all_chars_app p a b :
  Str.all_chars p (a +:+ b) = Str.all_chars p a && Str.all_chars p b.
Proof.
  induction a as [|c a IH]; [reflexivity|].
  rewrite app_cons. cbn [Str.all_chars]. by rewrite IH, andb_assoc.
Qed.

Lemma all_chars_join p (l : list string) :
  Forall (fun s => Str.all_chars p s = true) l ->
  Str.all_chars p (Str.join "" l) = true.
Proof.
  induction 1 as [|x l Hx Hl IH]; [reflexivity|].
  by rewrite join_empty_cons, all_chars_app, Hx, IH.
Qed.

Lemma all_chars_lstrip p d s :
  Str.all_chars p s = true -> Str.all_chars p (Str.lstrip d s) = true.
Proof.
  induction s as [|c s IH]; [done|]. cbn [Str.lstrip].
  destruct (Ascii.eqb c d); [|done]. cbn [Str.all_chars].
  intros [_ Hs]%andb_true_iff. auto.
Qed.

Lemma lstrip_not_start d s :
  Str.startswith (String d "") (Str.lstrip d s) = false.
Proof.
  induction s as [|c s IH]; [reflexivity|]. cbn [Str.lstrip].
  destruct (Ascii.eqb_spec c d) as [->|Hc]; [done|].
  unfold Str.startswith. cbn [String.prefix].
  by destruct (ascii_dec d c) as [->|].
Qed.


Lemma snake_body_no_upper w : no_upper (snake_body w).
Proof.
  unfold no_upper. induction w as [|c w IH]; [reflexivity|].
  cbn [snake_body]. destruct (Str.isupper c) eqn:Hc; cbn [Str.all_chars].
  - by rewrite lower_not_upper, IH.
  - by rewrite Hc, IH.
Qed.




Lemma capitalize_free x : free_of "_" x -> free_of "_" (Str.capitalize x).
Proof.
  unfold free_of. destruct x as [|c x]; [done|].
  cbn [Str.capitalize Str.all_chars]. rewrite upper_sep.
  intros [-> Hx]%andb_true_iff. cbn [andb].
  induction x as [|d x IH]; [done|]. cbn [Str.all_chars Str.map_chars] in *.
  apply andb_true_iff in Hx as [Hd Hx]. by rewrite lower_sep, Hd, IH.
Qed.

End SnakeFacts.

(** X5: the result of [to_snake_case] has no uppercase letter and does not
    start with an underscore, whatever the input. *)
Theorem to_snake_case_shape (word : string) :
  no_upper (to_snake_case word)
  /\ Str.startswith "_" (to_snake_case word) = false.
Proof.
  rewrite CaseFacts.to_snake_case_body. split.
  - apply SnakeFacts.all_chars_lstrip, SnakeFacts.snake_body_no_upper.
  - apply SnakeFacts.lstrip_not_start.
Qed.






(** X9: the result of [to_camel_capital_case] contains no underscore,
    whatever the input. *)
Theorem to_camel_capital_case_no_underscore (word : string) :
  free_of "_" (to_camel_capital_case word).
Proof.
  unfold to_camel_capital_case, free_of.
  apply SnakeFacts.all_chars_join, Forall_map.
  eapply Forall_impl; [apply PathFacts.split_parts_free|].
  apply SnakeFacts.capitalize_free.
Qed.

(** ** More on local paths and URIs *)

Module CanonFacts.
Import StrFacts CharFacts PathFacts.

Lemma prefix_cons c p s :
  String.prefix (String c p) (String c s) = String.prefix p s.
Proof. cbn [String.prefix]. by destruct (ascii_dec c c). Qed.

Lemma proper_join_head comps :
  Forall proper_segment comps ->
  Str.startswith "/" (Str.join "/" comps) = false.
Proof.
  destruct 1 as [|x l (Hne & _ & _ & Hfree) _]; [reflexivity|].
  destruct x as [|c x]; [done|]. apply free_of_cons in Hfree as [Hc _].
  assert (exists t, Str.join "/" (String c x :: l) = String c t) as [t ->].
  { destruct l; [by eexists|]. rewrite join_cons2, app_cons. by eexists. }
  destruct (Str.startswith "/" (String c t)) eqn:Hs; [|done].
  by apply startswith_char in Hs.
Qed.

Lemma proper_split_join comps :
  Forall proper_segment comps ->
  Str.split "/" (Str.join "/" comps)
  = match comps with [] => [""] | _ => comps end.
Proof.
  intros Hc. destruct comps as [|x l]; [reflexivity|].
  apply split_join; [done|].
  eapply Forall_impl; [exact Hc|]. by intros y (_ & _ & _ & ?).
Qed.

Lemma fold_norm_proper n comps acc :
  Forall proper_segment comps ->
  fold_left (PosixPath.norm_step n) comps acc = (acc ++ comps)%list.
Proof.
  intros Hc. revert acc.
  induction Hc as [|x l (Hne & Hdot & Hdd & _) _ IH]; intros acc.
  - by rewrite List.app_nil_r.
  - cbn [fold_left]. rewrite IH. unfold PosixPath.norm_step.
    apply String.eqb_neq in Hne as ->. apply String.eqb_neq in Hdot as ->.
    apply String.eqb_neq in Hdd as ->. cbn [orb negb].
    by rewrite <- List.app_assoc.
Qed.

Lemma fold_norm_split n comps :
  Forall proper_segment comps ->
  fold_left (PosixPath.norm_step n) (Str.split "/" (Str.join "/" comps)) []
  = comps.
Proof.
  intros Hc. rewrite proper_split_join by done.
  destruct comps as [|x l]; [reflexivity|]. by rewrite fold_norm_proper.
Qed.

(** [normpath] leaves a canonical path as it is. *)
Lemma normpath_id r : canonical_path r -> PosixPath.normpath r = r.
Proof.
  intros (root & comps & Hroot & Hc & ->).
  pose proof (proper_join_head comps Hc) as Hhead.
  pose proof (fold_norm_split 1 comps Hc) as Hfold1.
  pose proof (fold_norm_split 2 comps Hc) as Hfold2.
  unfold Str.startswith in Hhead.
  set (J := Str.join "/" comps) in *.
  unfold PosixPath.normpath, PosixPath.initial_slashes, Str.startswith.
  destruct Hroot as [-> | ->].
  - change ("/" +:+ J) with (String "/" J).
    rewrite !prefix_cons, Hhead.
    replace (String.prefix "" J) with true by (by destruct J).
    cbn [andb String.eqb Ascii.eqb Bool.eqb].
    change (Str.split "/" (String "/" J)) with ("" :: Str.split "/" J).
    cbn [fold_left]. change (PosixPath.norm_step 1 [] "") with (@nil string).
    by rewrite Hfold1.
  - change ("//" +:+ J) with (String "/" (String "/" J)).
    rewrite !prefix_cons, Hhead.
    replace (String.prefix "" J) with true by (by destruct J).
    replace (String.prefix "" (String "/" J)) with true by done.
    cbn [andb negb String.eqb Ascii.eqb Bool.eqb].
    change (Str.split "/" (String "/" (String "/" J)))
      with ("" :: "" :: Str.split "/" J).
    cbn [fold_left].
    do 2 change (PosixPath.norm_step 2 [] "") with (@nil string).
    by rewrite Hfold2.
Qed.

Lemma canonical_head r : canonical_path r -> exists t, r = String "/" t.
Proof. intros (root & comps & [-> | ->] & _ & ->); by eexists. Qed.

Lemma canonical_abs r : canonical_path r -> PosixPath.isabs r = true.
Proof. intros [t ->]%canonical_head. by apply startswith_char. Qed.

Lemma canonical_no_tilde r :
  canonical_path r -> Str.startswith "~" r = false.
Proof.
  intros [t ->]%canonical_head.
  destruct (Str.startswith "~" (String "/" t)) eqn:Hs; [|done].
  by apply startswith_char in Hs.
Qed.

Lemma stringify_canonical os r :
  canonical_path r -> stringify_path os (VStr r) = Returns r.
Proof.
  intros Hr. unfold stringify_path. cbn.
  rewrite expanduser_other by by apply canonical_no_tilde.
  unfold PosixPath.abspath. rewrite canonical_abs by done.
  by rewrite normpath_id.
Qed.

Lemma length_app a b :
  String.length (a +:+ b) = String.length a + String.length b.
Proof.
  induction a as [|c a IH]; [reflexivity|].
  rewrite app_cons. cbn [String.length]. by rewrite IH.
Qed.









Lemma break_app d name rest :
  free_of d name ->
  rest = "" \/ Str.startswith (String d "") rest = true ->
  PosixPath.break d (name +:+ rest) = (name, rest).
Proof.
  intros Hname Hrest. induction name as [|c name IH].
  - rewrite app_nil_l. destruct Hrest as [-> | Hrest]; [done|].
    destruct rest as [|c rest]; [done|].
    apply startswith_char in Hrest as <-. cbn [PosixPath.break].
    by rewrite Ascii.eqb_refl.
  - apply free_of_cons in Hname as [Hc Hname]. rewrite app_cons.
    cbn [PosixPath.break]. apply Ascii.eqb_neq in Hc as ->.
    by rewrite IH.
Qed.

End CanonFacts.

(** X10: [stringify_path] is idempotent: applied to a path it returned, it
    returns that path again. *)
Theorem stringify_path_idempotent (os : posix) (fpath : pyvalue) (r : string) :
  PosixPath.isabs (os_getcwd os) = true ->
  stringify_path os fpath = Returns r ->
  stringify_path os (VStr r) = Returns r.
Proof.
  intros Hcwd Hr. apply CanonFacts.stringify_canonical.
  destruct fpath as [s|s|]; [| |done]; cbn in Hr; simplify_eq;
    by apply PathFacts.abspath_canonical.
Qed.

Lemma stringify_path_idempotent_witness :
  stringify_path example_os (VStr "/home/user/conf/a.yaml")
  = Returns "/home/user/conf/a.yaml".
Proof.
  apply (stringify_path_idempotent example_os
           (VPathLike "~/logs/../conf/./a.yaml")); reflexivity.
Defined.





(** X13: a leading [~] whose user cannot be resolved is not an error: with
    no [HOME] and no password entry for the invoking user, or with a
    [~name] the password database does not know, the path is taken as a
    relative path, [~] and all. *)
Theorem stringify_path_unknown_user (os : posix) (name rest : string) :
  free_of "/" name ->
  rest = "" \/ Str.startswith "/" rest = true ->
  match name with
  | "" => home_dir os = None
  | _ => pw_dir_of os name = None
  end ->
  stringify_path os (VStr ("~" +:+ name +:+ rest))
  = Returns (PosixPath.abspath os ("~" +:+ name +:+ rest)).
Proof.
  intros Hname Hrest Hunknown. unfold stringify_path. cbn. do 2 f_equal.
  rewrite StrFacts.app_cons, StrFacts.app_nil_l.
  unfold PosixPath.expanduser.
  rewrite (CanonFacts.break_app "/" name rest Hname Hrest).
  destruct name as [|c name].
  - unfold home_dir in Hunknown.
    destruct (os_environ os !! "HOME"); [done|]. by rewrite Hunknown.
  - by rewrite Hunknown.
Qed.

Lemma stringify_path_unknown_user_witness :
  stringify_path bare_os (VStr "~alice/data") = Returns "/srv/~alice/data"
  /\ stringify_path bare_os (VStr "~/data") = Returns "/srv/~/data".
Proof.
  split.
  - apply (stringify_path_unknown_user bare_os "alice" "/data");
      [reflexivity | by right | reflexivity].
  - apply (stringify_path_unknown_user bare_os "" "/data");
      [reflexivity | by right | reflexivity].
Defined.

(** ** More on the usage dump *)

(** X14: only the help exit of the framework is swallowed.  A failing
    import, and any other exception of the help run, propagates to the caller
    as it is, whatever [raise_sys_exit]: the process is not made to exit with
    code 1. *)
Theorem dump_tool_usage_propagates (w : cli) (tool_name : option string)
    (raise_sys_exit : option bool) (e : exn) :
  (import_ToolsCLI w = Raises e ->
   dump_tool_usage w tool_name raise_sys_exit = Raises e)
  /\ (import_ToolsCLI w = Returns tt ->
      fire_Fire w "ascli" (fmt_opt tool_name +:+ " --help") = Raises e ->
      (forall c, e <> FireExit c) ->
      dump_tool_usage w tool_name raise_sys_exit = Raises e).
Proof.
  unfold dump_tool_usage. split.
  - by intros ->.
  - intros -> Hfire He. change (_ ← Returns tt; ?k) with k. rewrite Hfire.
    destruct e; try done. by destruct (He code).
Qed.

Lemma dump_tool_usage_propagates_witness :
  dump_tool_usage failing_cli (Some "profiling") (Some true)
  = Raises (OtherError "no such command").
Proof.
  apply (proj2 (dump_tool_usage_propagates failing_cli (Some "profiling")
                  (Some true) (OtherError "no such command")));
    [reflexivity | reflexivity | discriminate].
Defined.

(** ** More on the run-environment bootstrap *)

Module BootFacts.
Import StrFacts.

Lemma home_not_prefixed prefix k :
  prefix <> "" -> String.length k = 4 -> "HOME" <> prefix +:+ k.
Proof.
  intros Hp Hk H. apply (f_equal String.length) in H.
  rewrite CanonFacts.length_app, Hk in H. cbn in H.
  destruct prefix; [done | cbn in H; lia].
Qed.

Lemma home_not_log_key prefix : "HOME" <> prefix +:+ "LOG_FILE".
Proof.
  intros H. apply (f_equal String.length) in H.
  rewrite CanonFacts.length_app in H. cbn in H. lia.
Qed.

Lemma app_inj_r a b c : a +:+ c = b +:+ c -> a = b.
Proof.
  revert b. induction a as [|x a IH]; intros [|y b] H.
  - done.
  - apply (f_equal String.length) in H.
    rewrite app_nil_l, app_cons in H. cbn [String.length] in H.
    rewrite CanonFacts.length_app in H. lia.
  - apply (f_equal String.length) in H.
    rewrite app_nil_l, app_cons in H. cbn [String.length] in H.
    rewrite CanonFacts.length_app in H. lia.
  - rewrite !app_cons in H. injection H as -> H. f_equal. by apply IH.
Qed.

Section Run.

Variable host : Type.
Variable gen_uuid_with_ts : nat -> host -> string * host.
Variable make_dirs : string -> host -> host * result unit.
Variable gen_report_sec_header : string -> string.
Variable env_prefix short_name : string.

Let run := init_environment host gen_uuid_with_ts make_dirs
             gen_report_sec_header env_prefix short_name.

Let uuid_of := run_uuid gen_uuid_with_ts.
Let log_file_of := run_log_file gen_uuid_with_ts short_name.

Lemma run_environ p :
  environ (fst (run p))
  = <[env_prefix +:+ "LOG_FILE" := log_file_of p]>
      (<[env_prefix +:+ "HOME" := run_home p]>
         (<[env_prefix +:+ "UUID" := uuid_of p]> (environ p))).
Proof.
  unfold run, init_environment, log_file_of, uuid_of, run_log_file, run_home,
    run_uuid.
  destruct (gen_uuid_with_ts 8 (the_host p)) as [uuid h]. cbn [fst].
  unfold set_rapids_tools_env, get_sys_env_var.
  rewrite lookup_insert_ne by apply EnvFacts.uuid_key_not_home.
  rewrite !app_assoc.
  by destruct (make_dirs _ h) as [h' [[]|e]].
Qed.

Lemma run_outcome p :
  let h := snd (gen_uuid_with_ts 8 (the_host p)) in
  let made := make_dirs (run_home p +:+ "/logs") h in
  the_host (fst (run p)) = fst made
  /\ snd (run p) = snd made
  /\ stdout (fst (run p))
     = match snd made with
       | Returns _ =>
           (stdout p ++
            [gen_report_sec_header "Application Logs";
             "Location: " +:+ log_file_of p;
             "In case of any errors, please share the log file with the Spark RAPIDS team."
             +:+ String "010" ""])%list
       | Raises _ => stdout p
       end.
Proof.
  unfold run, init_environment, log_file_of, uuid_of, run_log_file, run_home,
    run_uuid.
  destruct (gen_uuid_with_ts 8 (the_host p)) as [uuid h]. cbn [fst snd].
  unfold set_rapids_tools_env, get_sys_env_var.
  rewrite lookup_insert_ne by apply EnvFacts.uuid_key_not_home.
  rewrite !app_assoc.
  by destruct (make_dirs _ h) as [h' [[]|e]].
Qed.

Lemma run_keeps p k :
  k <> env_prefix +:+ "UUID" -> k <> env_prefix +:+ "HOME" ->
  k <> env_prefix +:+ "LOG_FILE" ->
  environ (fst (run p)) !! k = environ p !! k.
Proof.
  intros H1 H2 H3. rewrite run_environ.
  by rewrite !lookup_insert_ne.
Qed.

Lemma run_log_entry p :
  environ (fst (run p)) !! (env_prefix +:+ "LOG_FILE") = Some (log_file_of p).
Proof. rewrite run_environ. apply lookup_insert_eq. Qed.

End Run.

End BootFacts.

(** X15: a run changes three entries of the environment store and nothing
    else: every key other than the tool's identifier, home and log-file keys
    keeps its value, or stays absent. *)
Theorem init_environment_frame (host : Type)
    (gen_uuid_with_ts : nat -> host -> string * host)
    (make_dirs : string -> host -> host * result unit)
    (gen_report_sec_header : string -> string)
    (env_prefix short_name : string) (p : process host) (k : string) :
  k <> env_prefix +:+ "UUID" -> k <> env_prefix +:+ "HOME" ->
  k <> env_prefix +:+ "LOG_FILE" ->
  environ (fst (init_environment host gen_uuid_with_ts make_dirs
                  gen_report_sec_header env_prefix short_name p)) !! k
  = environ p !! k.
Proof. apply BootFacts.run_keeps. Qed.

Lemma init_environment_frame_witness :
  environ (fst (init_environment nat example_gen_uuid example_make_dirs
                  (fun t => t) "RAPIDS_USER_TOOLS_" "qualification"
                  (Process (<["HOME" := "/home/user"]> ∅) 0 [])))
  !! "HOME" = Some "/home/user".
Proof.
  rewrite (init_environment_frame nat example_gen_uuid example_make_dirs
             (fun t => t) "RAPIDS_USER_TOOLS_" "qualification"
             (Process (<["HOME" := "/home/user"]> ∅) 0 []) "HOME");
    [reflexivity | discriminate..].
Defined.

(** X16: whatever [HOME] is, a run publishes the generated identifier, the
    tools home under the home directory, and a log file that lies in the
    [logs] directory of the published tools home and is named after the short
    name and the published identifier. *)
Theorem init_environment_publishes (host : Type)
    (gen_uuid_with_ts : nat -> host -> string * host)
    (make_dirs : string -> host -> host * result unit)
    (gen_report_sec_header : string -> string)
    (env_prefix short_name : string) (p : process host) :
  let env' := environ (fst (init_environment host gen_uuid_with_ts make_dirs
                              gen_report_sec_header env_prefix short_name p)) in
  exists uuid home,
    uuid = fst (gen_uuid_with_ts 8 (the_host p))
    /\ home = build_path (get_sys_env_var (environ p) "HOME" "/tmp")
                         ".spark_rapids_tools"
    /\ env' !! (env_prefix +:+ "UUID") = Some uuid
    /\ env' !! (env_prefix +:+ "HOME") = Some home
    /\ env' !! (env_prefix +:+ "LOG_FILE")
       = Some (home +:+ "/logs/" +:+ short_name +:+ "_" +:+ uuid +:+ ".log").
Proof.
  intros env'. subst env'. rewrite BootFacts.run_environ.
  eexists _, _. split; [reflexivity|]. split; [reflexivity|].
  split; [|split].
  - rewrite !lookup_insert_ne by (by apply EnvFacts.key_ne).
    apply lookup_insert_eq.
  - rewrite lookup_insert_ne by (by apply EnvFacts.key_ne).
    apply lookup_insert_eq.
  - apply lookup_insert_eq.
Qed.

(** X17: when the log directory cannot be created, the exception of
    [make_dirs] propagates and nothing is printed, but the three entries are
    already in the environment store: the log-file key names a file whose
    directory does not exist. *)
Theorem init_environment_make_dirs_fails (host : Type)
    (gen_uuid_with_ts : nat -> host -> string * host)
    (make_dirs : string -> host -> host * result unit)
    (gen_report_sec_header : string -> string)
    (env_prefix short_name : string) (p : process host)
    (h' : host) (e : exn) :
  make_dirs (run_home p +:+ "/logs") (snd (gen_uuid_with_ts 8 (the_host p)))
  = (h', Raises e) ->
  let r := init_environment host gen_uuid_with_ts make_dirs
             gen_report_sec_header env_prefix short_name p in
  snd r = Raises e
  /\ stdout (fst r) = stdout p
  /\ environ (fst r) !! (env_prefix +:+ "LOG_FILE")
     = Some (run_log_file gen_uuid_with_ts short_name p).
Proof.
  intros Hmk r. subst r.
  destruct (BootFacts.run_outcome host gen_uuid_with_ts make_dirs
              gen_report_sec_header env_prefix short_name p) as (_ & Hr & Hout).
  rewrite Hmk in Hr, Hout. split; [exact Hr|]. split; [exact Hout|].
  apply BootFacts.run_log_entry.
Qed.

Lemma init_environment_make_dirs_fails_witness :
  snd (init_environment nat example_gen_uuid readonly_make_dirs
         (fun t => t) "RAPIDS_USER_TOOLS_" "qualification" example_process)
  = Raises (IOError "Permission denied").
Proof.
  apply (init_environment_make_dirs_fails nat example_gen_uuid
           readonly_make_dirs (fun t => t) "RAPIDS_USER_TOOLS_"
           "qualification" example_process 1 (IOError "Permission denied")).
  reflexivity.
Defined.

(** X18: when the log directory is created, the run returns, and prints
    three lines after what was printed before: the section header, the
    location of the log file, which is the path published under the log-file
    key, and the notice. *)
Theorem init_environment_prints_location (host : Type)
    (gen_uuid_with_ts : nat -> host -> string * host)
    (make_dirs : string -> host -> host * result unit)
    (gen_report_sec_header : string -> string)
    (env_prefix short_name : string) (p : process host) (h' : host) :
  make_dirs (run_home p +:+ "/logs") (snd (gen_uuid_with_ts 8 (the_host p)))
  = (h', Returns tt) ->
  let r := init_environment host gen_uuid_with_ts make_dirs
             gen_report_sec_header env_prefix short_name p in
  snd r = Returns tt
  /\ the_host (fst r) = h'
  /\ exists log_file,
       environ (fst r) !! (env_prefix +:+ "LOG_FILE") = Some log_file
       /\ stdout (fst r)
          = (stdout p ++
             [gen_report_sec_header "Application Logs";
              "Location: " +:+ log_file;
              "In case of any errors, please share the log file with the Spark RAPIDS team."
              +:+ String "010" ""])%list.
Proof.
  intros Hmk r. subst r.
  destruct (BootFacts.run_outcome host gen_uuid_with_ts make_dirs
              gen_report_sec_header env_prefix short_name p) as (Hh & Hr & Hout).
  rewrite Hmk in Hh, Hr, Hout. split; [exact Hr|]. split; [exact Hh|].
  eexists. split; [apply BootFacts.run_log_entry | exact Hout].
Qed.

Lemma init_environment_prints_location_witness :
  stdout (fst (init_environment nat example_gen_uuid example_make_dirs
                 (fun t => "== " +:+ t) "RAPIDS_USER_TOOLS_" "qualification"
                 example_process))
  = ["== Application Logs";
     "Location: /tmp/.spark_rapids_tools/logs/qualification_20230101120000_a1b2c3d4.log";
     "In case of any errors, please share the log file with the Spark RAPIDS team."
     +:+ String "010" ""].
Proof.
  destruct (init_environment_prints_location nat example_gen_uuid
              example_make_dirs (fun t => "== " +:+ t) "RAPIDS_USER_TOOLS_"
              "qualification" example_process 1 eq_refl)
    as (_ & _ & log_file & Hlog & Hout).
  vm_compute in Hlog. injection Hlog as <-. exact Hout.
Defined.

(** X19: two runs one after the other in the same process, under a
    non-empty key prefix, publish different log files as soon as the two
    generated identifiers differ. *)
Theorem init_environment_twice (host : Type)
    (gen_uuid_with_ts : nat -> host -> string * host)
    (make_dirs : string -> host -> host * result unit)
    (gen_report_sec_header : string -> string)
    (env_prefix short_name : string) (p : process host) :
  let run := init_environment host gen_uuid_with_ts make_dirs
               gen_report_sec_header env_prefix short_name in
  let p1 := fst (run p) in
  let p2 := fst (run p1) in
  env_prefix <> "" ->
  fst (gen_uuid_with_ts 8 (the_host p)) <> fst (gen_uuid_with_ts 8 (the_host p1)) ->
  environ p1 !! (env_prefix +:+ "LOG_FILE")
  <> environ p2 !! (env_prefix +:+ "LOG_FILE").
Proof.
  intros run p1 p2 Hprefix Huuid.
  assert (H1 : environ p1 !! (env_prefix +:+ "LOG_FILE")
               = Some (run_log_file gen_uuid_with_ts short_name p))
    by apply BootFacts.run_log_entry.
  assert (H2 : environ p2 !! (env_prefix +:+ "LOG_FILE")
               = Some (run_log_file gen_uuid_with_ts short_name p1))
    by apply BootFacts.run_log_entry.
  rewrite H1, H2. clear H1 H2.
  assert (Hhome : run_home p1 = run_home p).
  { unfold run_home, get_sys_env_var. subst p1 run.
    rewrite BootFacts.run_keeps;
      [done | by apply BootFacts.home_not_prefixed..
       | apply BootFacts.home_not_log_key]. }
  unfold run_log_file. rewrite Hhome. intros [= H].
  do 4 apply (inj (String.app _)) in H.
  apply BootFacts.app_inj_r in H. by apply Huuid.
Qed.

Lemma init_environment_twice_witness :
  environ (fst (init_environment nat counting_gen_uuid example_make_dirs
                  (fun t => t) "RAPIDS_USER_TOOLS_" "qualification"
                  example_process))
  !! "RAPIDS_USER_TOOLS_LOG_FILE"
  <> environ (fst (init_environment nat counting_gen_uuid example_make_dirs
                     (fun t => t) "RAPIDS_USER_TOOLS_" "qualification"
                     (fst (init_environment nat counting_gen_uuid
                             example_make_dirs (fun t => t)
                             "RAPIDS_USER_TOOLS_" "qualification"
                             example_process))))
     !! "RAPIDS_USER_TOOLS_LOG_FILE".
Proof.
  apply (init_environment_twice nat counting_gen_uuid example_make_dirs
           (fun t => t) "RAPIDS_USER_TOOLS_" "qualification" example_process);
    [discriminate | vm_compute; discriminate].
Defined.
